(** * FreeIPA web UI glue and ACI seed data

  A shallow embedding of
  - [install/ui/src/freeipa/_base/construct.js]  ([construct.is_constructor]),
  - [install/ui/group.js]  (the group entity, the non-posix checkbox widget
    and the group adder dialog),
  - [install/updates/20-aci.update] and the replica administration LDIF
    (the ACI values they add or remove),
  together with the properties stated about them. *)

From Stdlib Require Import ZArith String Ascii List Bool SpecFloat DecimalString.
From stdpp Require Import base option list strings gmap.

Local Open Scope string_scope.

(** ** JavaScript values

  Only the part of the language the embedded sources exercise: [typeof],
  truthiness ([ToBoolean]), logical not, property reads [o.name] and [o[i]],
  the [TypeError] raised by a property read on [undefined] or [null], and
  property reads that run code and may raise. *)

Module JS.

(** Abrupt completions.  The embedded code has no [throw] of its own: what
    it can raise is the implicit [TypeError] of a read on [undefined] or
    [null], and whatever a property read that runs code (an accessor, a proxy
    trap) throws, named here by a description. *)
Inductive error : Type :=
  | TypeError
  | Thrown (what : string).

Inductive result (A : Type) : Type :=
  | Ok (a : A)
  | Throw (e : error).
Arguments Ok {A} a.
Arguments Throw {A} e.

#[global] Instance result_ret : MRet result := fun A a => Ok a.
#[global] Instance result_bind : MBind result := fun A B k r =>
  match r with
  | Ok a => k a
  | Throw e => Throw e
  end.

Definition returns {A : Type} (r : result A) : Prop := exists a, r = Ok a.

(** Runtime values.  Numbers are IEEE-754 binary64 ([spec_float]).  Objects
    and functions carry their own data properties, in declaration order, and
    their [[Prototype]] ([None] stands for the end of the chain: the built-in
    root prototypes, which define none of the names read here).  [VExotic]
    is an object -- a function when [callable] -- whose property reads run
    code: accessor properties, proxy traps.  [get name] is how the read of
    [name] completes, with a value or by raising; the read of a name
    completes the same way each time. *)
#[warnings="-register-all"]
Inductive value : Type :=
  | VUndefined
  | VNull
  | VBool (b : bool)
  | VNumber (x : spec_float)
  | VBigInt (z : Z)
  | VString (s : string)
  | VSymbol (description : string)
  | VArray (elems : list value)
  | VObject (props : list (string * value)) (proto : option value)
  | VFunction (props : list (string * value)) (proto : option value)
  | VExotic (callable : bool) (get : string -> result value).

(** [typeof v] *)
Definition typeof (v : value) : string :=
  match v with
  | VUndefined => "undefined"
  | VNull => "object"
  | VBool _ => "boolean"
  | VNumber _ => "number"
  | VBigInt _ => "bigint"
  | VString _ => "string"
  | VSymbol _ => "symbol"
  | VArray _ => "object"
  | VObject _ _ => "object"
  | VFunction _ _ => "function"
  | VExotic callable _ => if callable then "function" else "object"
  end.

(** [ToBoolean]: [undefined], [null], [false], [+0], [-0], [NaN], [0n] and
    the empty string are falsy; everything else is truthy. *)
Definition to_boolean (v : value) : bool :=
  match v with
  | VUndefined | VNull => false
  | VBool b => b
  | VNumber (S754_zero _) | VNumber S754_nan => false
  | VNumber _ => true
  | VBigInt z => negb (Z.eqb z 0)
  | VString EmptyString => false
  | VString _ => true
  | VSymbol _ | VArray _ | VObject _ _ | VFunction _ _ | VExotic _ _ => true
  end.

(** [!v] *)
Definition js_not (v : value) : value := VBool (negb (to_boolean v)).

(** [a === b] on two strings, as in [typeof x === 'function']. *)
Definition strict_equals_string (a b : string) : value := VBool (String.eqb a b).

(** First binding of [k] among own properties. *)
Fixpoint own (k : string) (props : list (string * value)) : option value :=
  match props with
  | [] => None
  | (k', v) :: rest => if String.eqb k k' then Some v else own k rest
  end.

(** The data property [k] of an object literal, along its prototype chain:
    what the tables of [group.js] are read back with. *)
Fixpoint lookup_chain (k : string) (v : value) : value :=
  match v with
  | VObject props proto | VFunction props proto =>
      match own k props with
      | Some x => x
      | None =>
          match proto with
          | Some p => lookup_chain k p
          | None => VUndefined
          end
      end
  | _ => VUndefined
  end.

(** [[Get]] of [k] on an object: own data properties first, then the
    prototype chain; on an exotic object, whatever its read does. *)
Fixpoint get_chain (k : string) (v : value) : result value :=
  match v with
  | VObject props proto | VFunction props proto =>
      match own k props with
      | Some x => Ok x
      | None =>
          match proto with
          | Some p => get_chain k p
          | None => Ok VUndefined
          end
      end
  | VExotic _ get => get k
  | _ => Ok VUndefined
  end.

(** [v.name] for a name that is not an array index. *)
Definition get_prop (v : value) (name : string) : result value :=
  match v with
  | VUndefined | VNull => Throw TypeError
  | VObject _ _ | VFunction _ _ | VExotic _ _ => get_chain name v
  | _ => Ok VUndefined
  end.

(** The property key of the index [i]: its decimal numeral. *)
Definition index_key (i : nat) : string :=
  NilEmpty.string_of_uint (Nat.to_uint i).

(** [v[i]] for a non-negative integer literal [i]. *)
Definition get_index (v : value) (i : nat) : result value :=
  match v with
  | VUndefined | VNull => Throw TypeError
  | VArray elems => Ok (nth i elems VUndefined)
  | VString s =>
      match String.get i s with
      | Some c => Ok (VString (String c EmptyString))
      | None => Ok VUndefined
      end
  | VObject _ _ | VFunction _ _ | VExotic _ _ => get_chain (index_key i) v
  | _ => Ok VUndefined
  end.

(** Values on which a property read does not raise a [TypeError] for want
    of an object. *)
Definition object_coercible (v : value) : bool :=
  match v with
  | VUndefined | VNull => false
  | _ => true
  end.

(** An object whose property [name] is an accessor that throws; its other
    properties are absent. *)
Definition throwing_accessor (callable : bool) (name what : string) : value :=
  VExotic callable
    (fun k => if String.eqb k name then Throw (Thrown what) else Ok VUndefined).

End JS.

(** ** [_base/construct.js] *)

Module Construct.
Import JS.

(** [[
    is_constructor: function(obj) {
        return typeof obj === 'function' && typeof obj.extend === 'function';
    }
    ]]
    [a && b] evaluates [b] only when [a] is truthy and otherwise yields [a]. *)
Definition is_constructor (obj : value) : result value :=
  let lhs := strict_equals_string (typeof obj) "function" in
  if to_boolean lhs then
    extend ← get_prop obj "extend";
    mret (strict_equals_string (typeof extend) "function")
  else mret lhs.

(** A plain function, [function () {}]: no property of its own. *)
Definition plain_function : value := VFunction [] None.

(** A function whose [extend] is an accessor that throws. *)
Definition throwing_extend : value :=
  throwing_accessor true "extend" "extend getter".

End Construct.

(** ** [install/ui/group.js] *)

Module Group.
Import JS.

(** *** Framework interfaces

    [IPA.entity], its builder, [IPA.checkbox_widget], [IPA.entity_adder_dialog]
    and the field objects belong to the UI framework ([ipa.js], [widget.js],
    [field.js], ...), which [group.js] only calls.  They enter as interfaces. *)

(** A form field, as [on_posix_change] uses it: the methods [reset()] and
    [set_enabled(flag)], which update the field object in place, and two
    observations of it. *)
Class Field (F : Type) : Type := {
  reset : F -> F;
  set_enabled : value -> F -> F;
  enabled : F -> bool;
  field_value : F -> value
}.

(** What the framework's [set_enabled] is taken to do: record the flag, and
    nothing else that the observations can see. *)
Class FieldLaws (F : Type) `{Field F} : Prop := {
  enabled_set_enabled : forall (b : bool) (f : F),
    enabled (set_enabled (VBool b) f) = b;
  field_value_set_enabled : forall (v : value) (f : F),
    field_value (set_enabled v f) = field_value f
}.

(** [IPA.checkbox_widget(spec)] builds the widget; [checkbox_save()] reports
    its state. *)
Class Checkbox (W : Type) : Type := {
  checkbox_widget : value -> W;
  checkbox_save : W -> value
}.

(** An untouched checkbox reports the [checked] default its spec declared. *)
Class CheckboxLaws (W : Type) `{Checkbox W} : Prop := {
  checkbox_save_default : forall spec : value,
    checkbox_save (checkbox_widget spec)
    = VArray [VBool (to_boolean (lookup_chain "checked" spec))]
}.

(** The framework values [init] passes along. *)
Record ipa : Type := {
  serial_associator : value;        (* IPA.serial_associator *)
  group_adder_dialog_factory : value; (* IPA.group_adder_dialog *)
  messages_objects_group_posix : value (* IPA.messages.objects.group.posix *)
}.

(** *** [IPA.group.entity]: [that.init] *)

(** The calls [init] issues, in order; each builder method returns the builder,
    so the chain is a sequence of calls on it. *)
Inductive call : Type :=
  | entity_init
  | search_facet (spec : value)
  | details_facet (spec : value)
  | association_facet (spec : value)
  | standard_association_facets
  | adder_dialog (spec : value).

(** Object, array and string literals. *)
Definition obj (props : list (string * value)) : value := VObject props None.
Definition arr (elems : list value) : value := VArray elems.
Definition str (s : string) : value := VString s.

Definition init (IPA : ipa) : list call :=
  [ entity_init;
    search_facet (obj [
      ("columns", arr [
        str "cn";
        str "gidnumber";
        str "description"
      ])
    ]);
    details_facet (obj [
      ("sections", arr [
        obj [
          ("name", str "details");
          ("fields", arr [
            str "cn";
            obj [
              ("type", str "textarea");
              ("name", str "description")
            ];
            str "gidnumber"
          ])
        ]
      ])
    ]);
    association_facet (obj [
      ("name", str "member_user");
      ("columns", arr [
        str "uid";
        str "uidnumber";
        str "mail";
        str "telephonenumber";
        str "title"
      ]);
      ("adder_columns", arr [
        obj [
          ("name", str "cn");
          ("width", str "100px")
        ];
        obj [
          ("name", str "uid");
          ("primary_key", VBool true);
          ("width", str "100px")
        ]
      ])
    ]);
    association_facet (obj [
      ("name", str "memberof_group");
      ("associator", serial_associator IPA)
    ]);
    association_facet (obj [
      ("name", str "memberof_netgroup");
      ("associator", serial_associator IPA)
    ]);
    association_facet (obj [
      ("name", str "memberof_role");
      ("associator", serial_associator IPA)
    ]);
    association_facet (obj [
      ("name", str "memberof_hbacrule");
      ("associator", serial_associator IPA);
      ("add_method", str "add_user");
      ("remove_method", str "remove_user")
    ]);
    association_facet (obj [
      ("name", str "memberof_sudorule");
      ("associator", serial_associator IPA);
      ("add_method", str "add_user");
      ("remove_method", str "remove_user")
    ]);
    standard_association_facets;
    adder_dialog (obj [
      ("factory", group_adder_dialog_factory IPA);
      ("fields", arr [
        str "cn";
        obj [
          ("type", str "textarea");
          ("name", str "description")
        ];
        obj [
          ("type", str "nonposix_checkbox");
          ("name", str "nonposix");
          ("label", messages_objects_group_posix IPA);
          ("checked", VBool true)
        ];
        str "gidnumber"
      ])
    ])
  ].

(** Reading the call sequence back. *)
Definition search_facet_specs (calls : list call) : list value :=
  omap (fun c => match c with search_facet s => Some s | _ => None end) calls.

Definition details_facet_specs (calls : list call) : list value :=
  omap (fun c => match c with details_facet s => Some s | _ => None end) calls.

Definition adder_dialog_specs (calls : list call) : list value :=
  omap (fun c => match c with adder_dialog s => Some s | _ => None end) calls.

(** The elements of an array value (none for anything else). *)
Definition elements (v : value) : list value :=
  match v with
  | VArray elems => elems
  | _ => []
  end.

(** The name a field spec declares: a bare string names the field; an object
    does so through its [name] property. *)
Definition field_spec_name (spec : value) : option string :=
  match spec with
  | VString s => Some s
  | VObject _ _ =>
      match lookup_chain "name" spec with
      | VString s => Some s
      | _ => None
      end
  | _ => None
  end.

(** The field spec called [name] among the [fields] of a dialog spec. *)
Definition find_field_spec (name : string) (dialog_spec : value) : option value :=
  List.find
    (fun spec =>
       match field_spec_name spec with
       | Some s => String.eqb s name
       | None => false
       end)
    (elements (lookup_chain "fields" dialog_spec)).

(** *** [IPA.group_nonposix_checkbox_widget] *)

(** [[
    spec = spec || {};
    var that = IPA.checkbox_widget(spec);
    ]] *)
Definition group_nonposix_checkbox_widget {W : Type} `{Checkbox W}
    (spec : value) : W :=
  let spec := if to_boolean spec then spec else obj [] in
  checkbox_widget spec.

(** [[
    that.save = function() {
        var value = that.checkbox_save()[0];
        // convert posix into non-posix
        return [!value];
    };
    ]] *)
Definition save {W : Type} `{Checkbox W} (that : W) : result value :=
  value ← get_index (checkbox_save that) 0;
  mret (arr [js_not value]).

(** [IPA.widget_factories['nonposix_checkbox'] = IPA.group_nonposix_checkbox_widget] *)
Definition nonposix_checkbox : string := "nonposix_checkbox".

(** *** [IPA.group_adder_dialog] *)

(** [that.fields.get_field(name)]: the dialog's fields by name.  A name the
    container does not hold yields [undefined] ([None]). *)
Definition get_field {F : Type} (fields : gmap string F) (name : string)
    : option F :=
  fields !! name.

(** A method call [field.m(...)] through the handle [name]: a [TypeError] on
    [undefined], otherwise the field object is updated where it lives. *)
Definition call_method {F : Type} (fields : gmap string F) (name : string)
    (m : F -> F) : result (gmap string F) :=
  match get_field fields name with
  | Some f => Ok (<[name := m f]> fields)
  | None => Throw TypeError
  end.

(** [[
    that.on_posix_change = function (value) {
        var gid_field = that.fields.get_field('gidnumber');
        if (value[0]) {
            gid_field.reset();
        }
        gid_field.set_enabled(!value[0]);
    };
    ]]
    In the last statement the callee [gid_field.set_enabled] is read before
    the argument is evaluated. *)
Definition on_posix_change {F : Type} `{Field F} (value : value)
    (fields : gmap string F) : result (gmap string F) :=
  let gid_field := "gidnumber" in
  test ← get_index value 0;
  fields ← (if to_boolean test
            then call_method fields gid_field reset
            else mret fields);
  _ ← match get_field fields gid_field with
      | Some _ => mret tt
      | None => Throw TypeError
      end;
  first ← get_index value 0;
  call_method fields gid_field (set_enabled (js_not first)).

(** The handler called for each of a sequence of notified values in turn,
    each call on the dialog the one before left: the outcome of a run in
    which every call returns.  A call that raises ends the run here; the
    properties below are about runs whose calls all return. *)
Fixpoint notify {F : Type} `{Field F} (values : list value)
    (fields : gmap string F) : result (gmap string F) :=
  match values with
  | [] => mret fields
  | value :: later =>
      fields ← on_posix_change value fields;
      notify later fields
  end.

(** *** A small implementation of the interfaces

    A field that remembers a value, the default [reset] restores, and the
    enabled flag; a checkbox that is its checked state. *)
Record plain_field : Type := {
  pf_value : value;
  pf_default : value;
  pf_enabled : bool
}.

#[global] Instance plain_field_ops : Field plain_field := {
  reset f := {| pf_value := pf_default f; pf_default := pf_default f;
                pf_enabled := pf_enabled f |};
  set_enabled flag f := {| pf_value := pf_value f; pf_default := pf_default f;
                           pf_enabled := to_boolean flag |};
  enabled := pf_enabled;
  field_value := pf_value
}.

#[global] Instance plain_checkbox : Checkbox bool := {
  checkbox_widget spec := to_boolean (lookup_chain "checked" spec);
  checkbox_save checked := VArray [VBool checked]
}.

(** An adder dialog whose gid field holds 1000 and is enabled. *)
Definition sample_gid : plain_field :=
  {| pf_value := VString "1000"; pf_default := VString EmptyString;
     pf_enabled := true |}.

Definition sample_fields : gmap string plain_field :=
  <["gidnumber" := sample_gid]> ∅.

(** A second dialog: its gid field is disabled at the start. *)
Definition disabled_fields : gmap string plain_field :=
  <["gidnumber" := set_enabled (VBool false) sample_gid]> sample_fields.

(** Framework values for [init]: two functions and the label text. *)
Definition sample_ipa : ipa :=
  {| serial_associator := VFunction [] None;
     group_adder_dialog_factory := VFunction [] None;
     messages_objects_group_posix := VString "POSIX group" |}.

End Group.

(** ** ACI seed data: [install/updates/20-aci.update] and the replica
    administration LDIF *)

Module Aci.

(** The double quote, and the files' text: in the literals below a backquote
    stands for each double quote of the file (the files hold no backquote). *)
Definition dquote : ascii := ascii_of_nat 34.

Fixpoint text (s : string) : string :=
  match s with
  | EmptyString => EmptyString
  | String c rest =>
      String (if Ascii.eqb c "`"%char then dquote else c) (text rest)
  end.

(** [install/updates/20-aci.update], line by line. *)
Definition aci_update : list string := map text [
  "# Don't allow managed netgroups to be modified";
  "dn: cn=ng,cn=alt,$SUFFIX";
  "add:aci: (targetfilter = `(objectClass=mepManagedEntry)`)(targetattr = `*`)(version 3.0; acl `Managed netgroups cannot be modified`; deny (write) userdn = `ldap:///all`;)";
  EmptyString;
  "# This is used for the host/service one-time passwordn and keytab indirectors.";
  "# We can do a query on a DN to see if an attribute exists.";
  "dn: cn=accounts,$SUFFIX";
  "add:aci: (targetattr=`userPassword || krbPrincipalKey`)(version 3.0; acl `Search existence of password and kerberos keys`; allow(search) userdn = `ldap:///all`;)";
  EmptyString;
  "# SSH public keys";
  "dn: $SUFFIX";
  "add:aci:(targetattr = `ipasshpubkey`)(version 3.0;acl `selfservice:Users can manage their own SSH public keys`;allow (write) userdn = `ldap:///self`;)";
  EmptyString;
  "dn: cn=computers,cn=accounts,$SUFFIX";
  "add:aci:(targetattr=`ipasshpubkey`)(version 3.0; acl `Hosts can modify their own SSH public keys`; allow(write) userdn = `ldap:///self`;)";
  EmptyString;
  "dn: cn=computers,cn=accounts,$SUFFIX";
  "add:aci:(targetattr=`ipasshpubkey`)(version 3.0; acl `Hosts can manage other host SSH public keys`; allow(write) userattr = `parent[0,1].managedby#USERDN`;)";
  EmptyString;
  "# Read access to $SUFFIX itself";
  "dn: $SUFFIX";
  "add:aci:(targetfilter=`(objectclass=domain)`)(targetattr=`objectclass || dc || info || nisDomain || associatedDomain`)(version 3.0; acl `Anonymous read access to DIT root`; allow(read, search, compare) userdn = `ldap:///anyone`;)";
  EmptyString;
  "# Read access to containers";
  "dn: $SUFFIX";
  "add:aci:(targetfilter=`(&(objectclass=nsContainer)(!(objectclass=krbPwdPolicy)))`)(target!=`ldap:///cn=masters,cn=ipa,cn=etc,$SUFFIX`)(targetattr=`objectclass || cn`)(version 3.0; acl `Anonymous read access to containers`; allow(read, search, compare) userdn = `ldap:///anyone`;)";
  EmptyString;
  "dn: cn=replicas,cn=ipa,cn=etc,$SUFFIX";
  "remove:aci:(targetfilter=`(objectclass=nsContainer)`)(version 3.0; acl `Deny read access to replica configuration`; deny(read, search, compare) userdn = `ldap:///anyone`;)";
  EmptyString;
  "# Read access to masters and their services";
  "dn: cn=masters,cn=ipa,cn=etc,$SUFFIX";
  "add:aci:(targetfilter=`(objectclass=nsContainer)`)(targetattr=`objectclass || cn`)(version 3.0; acl `Read access to masters`; allow(read, search, compare) userdn = `ldap:///all`;)";
  EmptyString;
  "# Read access to Kerberos container (cn=kerberos) and realm containers (cn=$REALM,cn=kerberos)";
  "dn: cn=kerberos,$SUFFIX";
  "add:aci:(targetattr = `cn || objectclass`)(targetfilter = `(|(objectclass=krbrealmcontainer)(objectclass=krbcontainer))`)(version 3.0;acl `Anonymous read access to Kerberos containers`;allow (read,compare,search) userdn = `ldap:///anyone`;)";
  EmptyString;
  "# Access for high-level admins";
  "dn: $SUFFIX";
  "# Read/write";
  "remove:aci:(targetattr != `userPassword || krbPrincipalKey || sambaLMPassword || sambaNTPassword || passwordHistory || krbMKey || krbPrincipalName || krbCanonicalName || krbUPEnabled || krbTicketPolicyReference || krbPrincipalExpiration || krbPasswordExpiration || krbPwdPolicyReference || krbPrincipalType || krbPwdHistory || krbLastPwdChange || krbPrincipalAliases || krbExtraData || krbLastSuccessfulAuth || krbLastFailedAuth || krbLoginFailedCount || krbTicketFlags || ipaUniqueId || memberOf || serverHostName || enrolledBy`)(version 3.0; acl `Admin can manage any entry`; allow (all) groupdn = `ldap:///cn=admins,cn=groups,cn=accounts,$SUFFIX`;)";
  "remove:aci:(targetattr != `userPassword || krbPrincipalKey || sambaLMPassword || sambaNTPassword || passwordHistory || krbMKey || krbPrincipalName || krbCanonicalName || krbUPEnabled || krbTicketPolicyReference || krbPrincipalExpiration || krbPasswordExpiration || krbPwdPolicyReference || krbPrincipalType || krbPwdHistory || krbLastPwdChange || krbPrincipalAliases || krbExtraData || krbLastSuccessfulAuth || krbLastFailedAuth || krbLoginFailedCount || krbTicketFlags || ipaUniqueId || memberOf || serverHostName || enrolledBy || ipaNTHash`)(version 3.0; acl `Admin can manage any entry`; allow (all) groupdn = `ldap:///cn=admins,cn=groups,cn=accounts,$SUFFIX`;)";
  "remove:aci:(targetattr != `userPassword || krbPrincipalKey || sambaLMPassword || sambaNTPassword || passwordHistory || krbMKey || krbPrincipalName || krbCanonicalName || krbUPEnabled || krbTicketPolicyReference || krbPrincipalExpiration || krbPasswordExpiration || krbPwdPolicyReference || krbPrincipalType || krbPwdHistory || krbLastPwdChange || krbPrincipalAliases || krbExtraData || krbLastSuccessfulAuth || krbLastFailedAuth || krbLoginFailedCount || ipaUniqueId || memberOf || serverHostName || enrolledBy || ipaNTHash`)(version 3.0; acl `Admin can manage any entry`; allow (all) groupdn = `ldap:///cn=admins,cn=groups,cn=accounts,$SUFFIX`;)";
  "remove:aci:(targetattr != `userPassword || krbPrincipalKey || sambaLMPassword || sambaNTPassword || passwordHistory || krbMKey || krbPrincipalName || krbCanonicalName || krbUPEnabled || krbTicketPolicyReference || krbPasswordExpiration || krbPwdPolicyReference || krbPrincipalType || krbPwdHistory || krbLastPwdChange || krbPrincipalAliases || krbExtraData || krbLastSuccessfulAuth || krbLastFailedAuth || krbLoginFailedCount || ipaUniqueId || memberOf || serverHostName || enrolledBy || ipaNTHash`)(version 3.0; acl `Admin can manage any entry`; allow (all) groupdn = `ldap:///cn=admins,cn=groups,cn=accounts,$SUFFIX`;)";
  "add:aci:(targetattr != `userPassword || krbPrincipalKey || sambaLMPassword || sambaNTPassword || passwordHistory || krbMKey || krbPrincipalName || krbCanonicalName || krbPasswordExpiration || krbPwdHistory || krbLastPwdChange || krbExtraData || krbLastSuccessfulAuth || krbLastFailedAuth || ipaUniqueId || memberOf || enrolledBy || ipaNTHash || ipaProtectedOperation`)(version 3.0; acl `Admin can manage any entry`; allow (all) groupdn = `ldap:///cn=admins,cn=groups,cn=accounts,$SUFFIX`;)";
  "# Write-only";
  "remove:aci:(targetattr = `userPassword || krbPrincipalKey || sambaLMPassword || sambaNTPassword || passwordHistory`)(version 3.0; acl `Admins can write passwords`; allow (add,delete,write) groupdn=`ldap:///cn=admins,cn=groups,cn=accounts,$SUFFIX`;)";
  "add:aci:(targetattr = `userPassword || krbPrincipalKey || sambaLMPassword || sambaNTPassword || passwordHistory || ipaNTHash`)(version 3.0; acl `Admins can write passwords`; allow (add,delete,write) groupdn=`ldap:///cn=admins,cn=groups,cn=accounts,$SUFFIX`;)";
  "add:aci:(targetfilter = `(objectClass=krbPwdPolicy)`)(targetattr = `krbMaxPwdLife || krbMinPwdLife || krbPwdMinDiffChars || krbPwdMinLength || krbPwdHistoryLength`)(version 3.0;acl `Admins can write password policies`; allow (read, search, compare, write) groupdn = `ldap:///cn=admins,cn=groups,cn=accounts,$SUFFIX`;)";
  "# Read-only";
  "add:aci:(targetattr=`ipaUniqueId || memberOf || enrolledBy || krbExtraData || krbPrincipalName || krbCanonicalName || krbPasswordExpiration || krbLastPwdChange || krbLastSuccessfulAuth || krbLastFailedAuth`)(version 3.0; acl `Admin read-only attributes`; allow (read, search, compare) groupdn = `ldap:///cn=admins,cn=groups,cn=accounts,$SUFFIX`;)";
  EmptyString;
  "dn: cn=tasks,cn=config";
  "add:aci:(targetattr=`*`)(version 3.0; acl `Admin can read all tasks`; allow (read, compare, search) groupdn = `ldap:///cn=admins,cn=groups,cn=accounts,$SUFFIX`;)";
  EmptyString;
  "# Removal of obsolete ACIs";
  "dn: cn=config";
  "# Replaced by 'System: Read Replication Agreements'";
  "remove:aci: (targetattr != aci)(version 3.0; aci `replica admins read access`; allow (read, search, compare) groupdn = `ldap:///cn=Modify Replication Agreements,cn=permissions,cn=pbac,$SUFFIX`;)";
  EmptyString;
  "dn: $SUFFIX";
  "remove:aci: (targetattr = `*`)(target = `ldap:///cn=*,cn=roles,cn=accounts,$SUFFIX`)(version 3.0; acl `No anonymous access to roles`; deny (read,search,compare) userdn != `ldap:///all`;)";
  "remove:aci: (targetattr = `memberOf || memberHost || memberUser`)(version 3.0; acl `No anonymous access to member information`; deny (read,search,compare) userdn != `ldap:///all`;)";
  "remove:aci: (targetattr = `*`)(target = `ldap:///cn=*,ou=SUDOers,$SUFFIX`)(version 3.0; acl `No anonymous access to sudo`; deny (read,search,compare) userdn != `ldap:///all`;)";
  EmptyString;
  "dn: cn=hbac,$SUFFIX";
  "remove:aci: (targetattr = `*`)(version 3.0; acl `No anonymous access to hbac`; deny (read,search,compare) userdn != `ldap:///all`;)";
  EmptyString;
  "dn: cn=sudo,$SUFFIX";
  "remove:aci: (targetattr = `*`)(version 3.0; acl `No anonymous access to sudo`; deny (read,search,compare) userdn != `ldap:///all`;)";
  EmptyString;
  "# Get Keytab operation Access Control";
  "dn: cn=accounts,$SUFFIX";
  "add:aci: (targetattr=`ipaProtectedOperation;read_keys`)(version 3.0; acl `Users allowed to retrieve keytab keys`; allow(read) userattr=`ipaAllowedToPerform;read_keys#USERDN`;)";
  "add:aci: (targetattr=`ipaProtectedOperation;read_keys`)(version 3.0; acl `Groups allowed to retrieve keytab keys`; allow(read) userattr=`ipaAllowedToPerform;read_keys#GROUPDN`;)";
  "add:aci: (targetattr=`ipaProtectedOperation;write_keys`)(version 3.0; acl `Users allowed to create keytab keys`; allow(write) userattr=`ipaAllowedToPerform;write_keys#USERDN`;)";
  "add:aci: (targetattr=`ipaProtectedOperation;write_keys`)(version 3.0; acl `Groups allowed to create keytab keys`; allow(write) userattr=`ipaAllowedToPerform;write_keys#GROUPDN`;)";
  "add:aci: (targetattr=`ipaProtectedOperation;write_keys`)(version 3.0; acl `Entities are allowed to rekey themselves`; allow(write) userdn=`ldap:///self`;)";
  "add:aci: (targetattr=`ipaProtectedOperation;write_keys`)(version 3.0; acl `Admins are allowed to rekey any entity`; allow(write) groupdn = `ldap:///cn=admins,cn=groups,cn=accounts,$SUFFIX`;)";
  "add:aci: (targetfilter=`(|(objectclass=ipaHost)(objectclass=ipaService))`)(targetattr=`ipaProtectedOperation;write_keys`)(version 3.0; acl `Entities are allowed to rekey managed entries`; allow(write) userattr=`managedby#USERDN`;)"
].

(** The replica administration LDIF, line by line. *)
Definition replica_administration_ldif : list string := map text [
  "# Replica administration";
  EmptyString;
  "dn: cn=`$SUFFIX`,cn=mapping tree,cn=config";
  "changetype: modify";
  "add: aci";
  "aci: (targetattr=*)(version 3.0;acl `permission:Add Replication Agreements`;allow (add) groupdn = `ldap:///cn=Add Replication Agreements,cn=permissions,cn=pbac,$SUFFIX`;)";
  EmptyString;
  "dn: cn=`$SUFFIX`,cn=mapping tree,cn=config";
  "changetype: modify";
  "add: aci";
  "aci: (targetattr=*)(targetfilter=`(|(objectclass=nsds5Replica)(objectclass=nsds5replicationagreement)(objectclass=nsDSWindowsReplicationAgreement)(objectClass=nsMappingTree))`)(version 3.0; acl `permission:Modify Replication Agreements`; allow (read, write, search) groupdn = `ldap:///cn=Modify Replication Agreements,cn=permissions,cn=pbac,$SUFFIX`;)";
  EmptyString;
  "dn: cn=`$SUFFIX`,cn=mapping tree,cn=config";
  "changetype: modify";
  "add: aci";
  "aci: (targetattr=*)(targetfilter=`(|(objectclass=nsds5replicationagreement)(objectclass=nsDSWindowsReplicationAgreement))`)(version 3.0;acl `permission:Remove Replication Agreements`;allow (delete) groupdn = `ldap:///cn=Remove Replication Agreements,cn=permissions,cn=pbac,$SUFFIX`;)";
  EmptyString;
  "dn: cn=Posix IDs,cn=Distributed Numeric Assignment Plugin,cn=plugins,cn=config";
  "changetype: modify";
  "add: aci";
  "aci: (targetattr=dnaNextRange || dnaNextValue || dnaMaxValue)(version 3.0;acl `permission:Modify DNA Range`;allow (write) groupdn = `ldap:///cn=Modify DNA Range,cn=permissions,cn=pbac,$SUFFIX`;)";
  EmptyString;
  "dn: cn=userRoot,cn=ldbm database,cn=plugins,cn=config";
  "changetype: modify";
  "add: aci";
  "aci: (targetattr=nsslapd-readonly)(version 3.0; acl `Allow marking the database readonly`; allow (write) groupdn = `ldap:///cn=Remove Replication Agreements,cn=permissions,cn=pbac,$SUFFIX`;)";
  EmptyString;
  "dn: cn=tasks,cn=config";
  "changetype: modify";
  "add: aci";
  "aci: (targetattr=*)(version 3.0; acl `Run tasks after replica re-initialization`; allow (add) groupdn = `ldap:///cn=Modify Replication Agreements,cn=permissions,cn=pbac,$SUFFIX`;)"
].

(** *** The ACI values of the two files *)

(** What follows the prefix [p] in [s], when [s] starts with [p]. *)
Fixpoint strip_prefix (p s : string) : option string :=
  match p with
  | EmptyString => Some s
  | String c p' =>
      match s with
      | String d s' => if Ascii.eqb c d then strip_prefix p' s' else None
      | EmptyString => None
      end
  end.

Definition is_space (c : ascii) : bool :=
  Ascii.eqb c " "%char || Ascii.eqb c (ascii_of_nat 9).

Fixpoint skip_spaces (s : string) : string :=
  match s with
  | String c rest => if is_space c then skip_spaces rest else s
  | EmptyString => s
  end.

(** An update-file line [add:aci:VALUE] or [remove:aci:VALUE]. *)
Definition update_value (line : string) : option string :=
  match strip_prefix "add:aci:" line with
  | Some v => Some (skip_spaces v)
  | None =>
      match strip_prefix "remove:aci:" line with
      | Some v => Some (skip_spaces v)
      | None => None
      end
  end.

(** An LDIF line [aci: VALUE]. *)
Definition ldif_value (line : string) : option string :=
  match strip_prefix "aci:" line with
  | Some v => Some (skip_spaces v)
  | None => None
  end.

(** Every ACI value the two files add or remove, in file order. *)
Definition aci_values : list string :=
  omap update_value aci_update ++ omap ldif_value replica_administration_ldif.

(** Line 60 of the update file removes the obsolete
    ["replica admins read access"] value from [cn=config]. *)
Definition replica_admins_read_access : string :=
  match update_value (nth 59 aci_update EmptyString) with
  | Some v => v
  | None => EmptyString
  end.

(** *** The ACI grammar

    An ACI is a sequence of target clauses followed by one body.
    - A target clause is, in parentheses, one of the keywords [targetfilter],
      [targetattr], [target], a comparison ([=] or [!=]) and a value, quoted
      or bare.
    - The body is, in parentheses, [version 3.0] and a semicolon, the keyword
      [acl] with the quoted name and a semicolon, then one permission and one
      bind rule, closed by a semicolon.
    - A permission is [allow] or [deny] with, in parentheses, a comma
      separated list of verbs.
    - A bind rule is [userdn], [groupdn] or [userattr], a comparison and a
      quoted value.
    Blanks may separate the tokens.  A recogniser returns the rest of the
    input after what it accepted. *)
Definition parser : Type := string -> option string.

Definition lit (word : string) : parser := strip_prefix word.

Definition then_ (p q : parser) : parser := fun s =>
  match p s with
  | Some rest => q rest
  | None => None
  end.

Definition or_ (p q : parser) : parser := fun s =>
  match p s with
  | Some rest => Some rest
  | None => q s
  end.

Infix "&>" := then_ (at level 41, left associativity).

Definition one_of (words : list string) : parser :=
  fold_right (fun w p => or_ (lit w) p) (fun _ => None) words.

Definition spaces : parser := fun s => Some (skip_spaces s).

(** At least one blank. *)
Definition spaces1 : parser := fun s =>
  match s with
  | String c rest => if is_space c then Some (skip_spaces rest) else None
  | EmptyString => None
  end.

(** As many [p] as the input has, at most [fuel] of them. *)
Fixpoint many (fuel : nat) (p : parser) (s : string) : string :=
  match fuel with
  | O => s
  | S fuel' =>
      match p s with
      | Some rest => many fuel' p rest
      | None => s
      end
  end.

Fixpoint until_quote (s : string) : option string :=
  match s with
  | EmptyString => None
  | String c rest => if Ascii.eqb c dquote then Some rest else until_quote rest
  end.

(** A double-quoted string. *)
Definition quoted : parser := fun s =>
  match s with
  | String c rest => if Ascii.eqb c dquote then until_quote rest else None
  | EmptyString => None
  end.

Definition ends_bare (c : ascii) : bool :=
  Ascii.eqb c ")"%char || Ascii.eqb c "("%char || Ascii.eqb c dquote.

Fixpoint bare_run (s : string) : string :=
  match s with
  | String c rest => if ends_bare c then s else bare_run rest
  | EmptyString => s
  end.

(** An unquoted target value, as the LDIF writes the [targetattr] lists: a
    non-empty run up to the closing parenthesis. *)
Definition bare : parser := fun s =>
  match s with
  | String c rest => if ends_bare c then None else Some (bare_run rest)
  | EmptyString => None
  end.

Definition target_keywords : list string :=
  ["targetfilter"; "targetattr"; "target"].

Definition permission_verbs : list string :=
  ["read"; "write"; "search"; "compare"; "add"; "delete"; "all"].

Definition bind_keywords : list string :=
  ["userdn"; "groupdn"; "userattr"].

Definition comparison : parser := one_of ["!="; "="].

Definition target_clause : parser :=
  lit "(" &> spaces &> one_of target_keywords &> spaces &> comparison &> spaces
  &> or_ quoted bare &> spaces &> lit ")".

Definition verb : parser := spaces &> one_of permission_verbs &> spaces.

Definition verb_list (fuel : nat) : parser := fun s =>
  match verb s with
  | Some rest => Some (many fuel (lit "," &> verb) rest)
  | None => None
  end.

Definition permission (fuel : nat) : parser :=
  one_of ["allow"; "deny"] &> spaces &> lit "(" &> verb_list fuel &> lit ")".

Definition bind_rule : parser :=
  one_of bind_keywords &> spaces &> comparison &> spaces &> quoted.

(** The body; [name_keywords] are the words accepted in front of the quoted
    name ([acl] in the grammar). *)
Definition body (name_keywords : list string) (fuel : nat) : parser :=
  lit "(" &> spaces &> lit "version" &> spaces1 &> lit "3.0" &> spaces
  &> lit ";" &> spaces &> one_of name_keywords &> spaces &> quoted &> spaces
  &> lit ";" &> spaces &> permission fuel &> spaces &> bind_rule &> spaces
  &> lit ";" &> spaces &> lit ")".

Definition aci (name_keywords : list string) : parser := fun s =>
  let fuel := String.length s in
  (spaces &> body name_keywords fuel &> spaces)
    (many fuel (spaces &> target_clause) s).

(** [s] is an ACI, whole. *)
Definition conforms_with (name_keywords : list string) (s : string) : bool :=
  match aci name_keywords s with
  | Some EmptyString => true
  | _ => false
  end.

Definition conforms : string -> bool := conforms_with ["acl"].

(** Conforming, or the obsolete value of line 60 read with [aci] for the
    keyword. *)
Definition conforms_but_for_keyword (v : string) : bool :=
  conforms v
  || (String.eqb v replica_admins_read_access && conforms_with ["aci"] v).

(** *** The changes the files make, entry by entry *)

Inductive action : Type := Add | Remove.

(** One change: the entry it applies to, what it does, and the ACI value. *)
Record change : Type := {
  change_dn : string;
  change_action : action;
  change_value : string
}.

Definition action_eqb (a b : action) : bool :=
  match a, b with
  | Add, Add | Remove, Remove => true
  | _, _ => false
  end.

(** A line [dn: DN]. *)
Definition dn_of (line : string) : option string :=
  match strip_prefix "dn:" line with
  | Some d => Some (skip_spaces d)
  | None => None
  end.

(** What an update-file line does to the [aci] attribute. *)
Definition update_action (line : string) : option (action * string) :=
  match strip_prefix "add:aci:" line with
  | Some v => Some (Add, skip_spaces v)
  | None =>
      match strip_prefix "remove:aci:" line with
      | Some v => Some (Remove, skip_spaces v)
      | None => None
      end
  end.

(** The update file read top to bottom: a [dn:] line opens an entry, and each
    [add:aci:] or [remove:aci:] line changes the entry last opened; [None]
    when such a line comes before any [dn:] line.  Other lines (comments,
    blanks) are passed over. *)
Fixpoint update_changes (dn : option string) (lines : list string)
    : option (list change) :=
  match lines with
  | [] => Some []
  | line :: rest =>
      match dn_of line with
      | Some d => update_changes (Some d) rest
      | None =>
          match update_action line with
          | Some (a, v) =>
              match dn with
              | Some d =>
                  match update_changes dn rest with
                  | Some cs =>
                      Some ({| change_dn := d; change_action := a;
                               change_value := v |} :: cs)
                  | None => None
                  end
              | None => None
              end
          | None => update_changes dn rest
          end
      end
  end.

(** The LDIF read record by record: each record is a [dn:] line, then
    [changetype: modify], then [add: aci], then the [aci:] value; comments and
    blank lines separate the records.  [None] on any other shape. *)
Fixpoint ldif_changes (lines : list string) : option (list change) :=
  match lines with
  | [] => Some []
  | line :: rest =>
      match dn_of line with
      | Some d =>
          match rest with
          | l1 :: l2 :: l3 :: rest' =>
              if String.eqb l1 "changetype: modify" && String.eqb l2 "add: aci"
              then
                match ldif_value l3, ldif_changes rest' with
                | Some v, Some cs =>
                    Some ({| change_dn := d; change_action := Add;
                             change_value := v |} :: cs)
                | _, _ => None
                end
              else None
          | _ => None
          end
      | None =>
          if String.eqb line EmptyString || String.prefix "#" line
          then ldif_changes rest
          else None
      end
  end.

(** Every change of the two files; [None] if either file is out of shape. *)
Definition all_changes : option (list change) :=
  match update_changes None aci_update,
        ldif_changes replica_administration_ldif with
  | Some cs, Some cs' => Some (app cs cs')
  | _, _ => None
  end.

(** The text up to the next double quote, and what follows that quote. *)
Fixpoint take_until_quote (s : string) : option (string * string) :=
  match s with
  | EmptyString => None
  | String c rest =>
      if Ascii.eqb c dquote then Some (EmptyString, rest)
      else
        match take_until_quote rest with
        | Some (taken, after) => Some (String c taken, after)
        | None => None
        end
  end.

(** The quoted name of an ACI: what the body gives after [version 3.0;] and
    the keyword. *)
Definition acl_name (v : string) : option string :=
  let fuel := String.length v in
  match (spaces &> lit "(" &> spaces &> lit "version" &> spaces1 &> lit "3.0"
         &> spaces &> lit ";" &> spaces &> one_of ["acl"; "aci"] &> spaces)
          (many fuel (spaces &> target_clause) v) with
  | Some (String c rest) =>
      if Ascii.eqb c dquote then
        match take_until_quote rest with
        | Some (name, _) => Some name
        | None => None
        end
      else None
  | _ => None
  end.

(** The changes that add a value, and those that remove one. *)
Definition added (cs : list change) : list change :=
  List.filter (fun c => action_eqb (change_action c) Add) cs.

Definition removed (cs : list change) : list change :=
  List.filter (fun c => action_eqb (change_action c) Remove) cs.

(** The changes of the two files (none if a file is out of shape). *)
Definition changes : list change :=
  match all_changes with
  | Some cs => cs
  | None => []
  end.

(** No value of [xs] is a value of [ys]. *)
Definition disjoint_values (xs ys : list change) : bool :=
  forallb
    (fun a =>
       forallb (fun r => negb (String.eqb (change_value a) (change_value r))) ys)
    xs.

End Aci.

(** * Properties *)

(** ** [construct.is_constructor] *)

Module ResultProps.
Import JS.

Lemma bind_ok {A B : Type} (a : A) (k : A -> result B) :
  (Ok a ≫= k) = k a.
Proof. reflexivity. Qed.

Lemma bind_throw {A B : Type} (e : error) (k : A -> result B) :
  (Throw e ≫= k) = Throw e.
Proof. reflexivity. Qed.

End ResultProps.

Module ConstructProps.
Import JS Construct ResultProps.

(** On a value of function type the answer is the second conjunct. *)
Lemma is_constructor_of_function (obj : value) :
  typeof obj = "function" ->
  is_constructor obj
  = get_prop obj "extend"
      ≫= fun extend => Ok (strict_equals_string (typeof extend) "function").
Proof.
  intros Hty. destruct obj; simpl in Hty; try discriminate Hty.
  - reflexivity.
  - destruct callable; [reflexivity | discriminate Hty].
Qed.

Lemma is_constructor_of_non_function (obj : value) :
  typeof obj <> "function" -> is_constructor obj = Ok (VBool false).
Proof.
  intros Hty. destruct obj; try reflexivity.
  - contradiction Hty. reflexivity.
  - destruct callable; [| reflexivity].
    contradiction Hty. reflexivity.
Qed.

Lemma strict_equals_string_true (a b : string) :
  strict_equals_string a b = VBool true <-> a = b.
Proof.
  unfold strict_equals_string. split.
  - intros Heq. injection Heq as Heq. now apply String.eqb_eq.
  - intros ->. now rewrite String.eqb_refl.
Qed.

(** C3, as stated, fails: a function without [extend] is of function type,
    and [is_constructor] answers [false] on it. *)
Lemma is_constructor_rejects_plain_function :
  ~ (is_constructor plain_function = Ok (VBool true)
     <-> typeof plain_function = "function").
Proof.
  intros [_ Hback].
  specialize (Hback eq_refl).
  discriminate Hback.
Qed.

Lemma is_constructor_true_inv (obj : value) :
  is_constructor obj = Ok (VBool true) ->
  typeof obj = "function"
  /\ exists extend, get_prop obj "extend" = Ok extend
                    /\ typeof extend = "function".
Proof.
  intros Hres.
  destruct (String.eqb_spec (typeof obj) "function") as [Hty | Hty].
  - split; [exact Hty |].
    rewrite (is_constructor_of_function _ Hty) in Hres.
    destruct (get_prop obj "extend") as [extend | e]; [| discriminate Hres].
    rewrite bind_ok in Hres. injection Hres as Hres.
    exists extend. split; [reflexivity |].
    now apply String.eqb_eq.
  - rewrite (is_constructor_of_non_function _ Hty) in Hres.
    discriminate Hres.
Qed.

(** C3, amended: [is_constructor obj] is [true] exactly when [obj] is of
    function type and its [extend] property is of function type too. *)
Theorem is_constructor_true_iff (obj : value) :
  is_constructor obj = Ok (VBool true)
  <-> typeof obj = "function"
      /\ exists extend, get_prop obj "extend" = Ok extend
                        /\ typeof extend = "function".
Proof.
  split.
  - apply is_constructor_true_inv.
  - intros (Hty & extend & Hget & Hext).
    rewrite (is_constructor_of_function _ Hty), Hget, bind_ok.
    f_equal. now apply strict_equals_string_true.
Qed.

(** C8, as stated, fails: on a function whose [extend] is an accessor that
    throws, the first conjunct holds, the read of [extend] takes place, and
    [is_constructor] raises what the accessor threw. *)
Lemma is_constructor_raises_on_throwing_extend :
  typeof throwing_extend = "function"
  /\ is_constructor throwing_extend = Throw (Thrown "extend getter")
  /\ ~ (exists b : bool, is_constructor throwing_extend = Ok (VBool b)).
Proof.
  split; [reflexivity |].
  split; [reflexivity |].
  intros [b Hb]. discriminate Hb.
Qed.

(** C8, amended: [is_constructor] raises only when [obj] is a function and
    the read of its [extend] raises, and then it raises the same.  On
    whatever is not a function it answers [false] without reading [extend]
    -- also on [undefined] and [null], where that read would raise.  On a
    function whose [extend] can be read it answers whether [extend] is a
    function.  What it returns is a boolean, and [true] only for a function
    whose [extend] is one. *)
Theorem is_constructor_returns_unless_extend_raises (obj : value) :
  (typeof obj <> "function" -> is_constructor obj = Ok (VBool false))
  /\ (object_coercible obj = false ->
      get_prop obj "extend" = Throw TypeError
      /\ is_constructor obj = Ok (VBool false))
  /\ (typeof obj = "function" ->
      forall extend : value,
        get_prop obj "extend" = Ok extend ->
        is_constructor obj
        = Ok (VBool (String.eqb (typeof extend) "function")))
  /\ (forall e : error,
        is_constructor obj = Throw e
        <-> typeof obj = "function" /\ get_prop obj "extend" = Throw e)
  /\ (forall r : value,
        is_constructor obj = Ok r -> exists b : bool, r = VBool b)
  /\ (is_constructor obj = Ok (VBool true) ->
      typeof obj = "function"
      /\ exists extend, get_prop obj "extend" = Ok extend
                        /\ typeof extend = "function").
Proof.
  split; [apply is_constructor_of_non_function |].
  split.
  { intros Hco. destruct obj; simpl in Hco; try discriminate Hco;
      split; reflexivity. }
  split.
  { intros Hty extend Hget.
    now rewrite (is_constructor_of_function _ Hty), Hget, bind_ok. }
  split.
  { intros e. split.
    - intros Hres.
      destruct (String.eqb_spec (typeof obj) "function") as [Hty | Hty].
      + split; [exact Hty |].
        rewrite (is_constructor_of_function _ Hty) in Hres.
        destruct (get_prop obj "extend") as [extend | e'].
        * rewrite bind_ok in Hres. discriminate Hres.
        * rewrite bind_throw in Hres. exact Hres.
      + rewrite (is_constructor_of_non_function _ Hty) in Hres.
        discriminate Hres.
    - intros [Hty Hget].
      now rewrite (is_constructor_of_function _ Hty), Hget, bind_throw. }
  split.
  { intros r Hres.
    destruct (String.eqb_spec (typeof obj) "function") as [Hty | Hty].
    - rewrite (is_constructor_of_function _ Hty) in Hres.
      destruct (get_prop obj "extend") as [extend | e]; [| discriminate Hres].
      rewrite bind_ok in Hres. injection Hres as <-.
      unfold strict_equals_string. eauto.
    - rewrite (is_constructor_of_non_function _ Hty) in Hres.
      injection Hres as <-. eauto. }
  apply is_constructor_true_inv.
Qed.

End ConstructProps.

(** ** [group.js]: the non-posix checkbox and the adder dialog *)

Module GroupProps.
Import JS Group ResultProps.

Lemma get_index_throws (v : value) (i : nat) :
  object_coercible v = false -> get_index v i = Throw TypeError.
Proof.
  destruct v; simpl; intros Hco; try discriminate Hco; reflexivity.
Qed.

Lemma call_method_present {F : Type} (fields : gmap string F) (name : string)
    (m : F -> F) (f : F) :
  get_field fields name = Some f ->
  call_method fields name m = Ok (<[name := m f]> fields).
Proof. unfold call_method. now intros ->. Qed.

(** The handler on a dialog that holds the gid field, for a value with a
    first element: one update of that field. *)
Lemma on_posix_change_present {F : Type} `{Field F} (value first : value)
    (fields : gmap string F) (f : F) :
  get_field fields "gidnumber" = Some f ->
  get_index value 0 = Ok first ->
  on_posix_change value fields
  = Ok (<["gidnumber" :=
            set_enabled (js_not first) (if to_boolean first then reset f else f)]>
          fields).
Proof.
  intros Hf Hv. unfold on_posix_change.
  rewrite Hv, !bind_ok.
  destruct (to_boolean first).
  - rewrite (call_method_present _ _ _ _ Hf), bind_ok.
    unfold call_method, get_field.
    rewrite lookup_insert_eq, !bind_ok.
    rewrite insert_insert_eq.
    reflexivity.
  - rewrite bind_ok, Hf, bind_ok, bind_ok.
    exact (call_method_present _ _ _ _ Hf).
Qed.

Lemma on_posix_change_enabled {F : Type} `{FieldLaws F} (value first : value)
    (fields : gmap string F) :
  is_Some (get_field fields "gidnumber") ->
  get_index value 0 = Ok first ->
  exists after,
    on_posix_change value fields = Ok after
    /\ enabled <$> get_field after "gidnumber" = Some (negb (to_boolean first)).
Proof.
  intros [f Hf] Hv. eexists. split.
  - exact (on_posix_change_present _ _ _ _ Hf Hv).
  - unfold get_field, js_not. rewrite lookup_insert_eq. simpl.
    now rewrite enabled_set_enabled.
Qed.

(** The small implementation meets the laws assumed of the framework. *)
Lemma plain_field_laws : FieldLaws plain_field.
Proof. split; intros; reflexivity. Qed.

Lemma plain_checkbox_laws : CheckboxLaws bool.
Proof. split; intros; reflexivity. Qed.

Lemma save_present {W : Type} `{Checkbox W} (that : W) (first : value) :
  get_index (checkbox_save that) 0 = Ok first ->
  save that = Ok (VArray [VBool (negb (to_boolean first))]).
Proof. intros Hfirst. unfold save. now rewrite Hfirst, bind_ok. Qed.

(** C1, as stated, fails: [true] in the notified value does not stand for a
    checked posix checkbox.  A checked checkbox saves [[false]], and the
    handler given that value turns a disabled gid field into an enabled
    one. *)
Lemma checked_posix_checkbox_enables_gid :
  checkbox_save (W := bool) true = VArray [VBool true]
  /\ save (W := bool) true = Ok (VArray [VBool false])
  /\ enabled <$> get_field disabled_fields "gidnumber" = Some false
  /\ exists after,
       on_posix_change (VArray [VBool false]) disabled_fields = Ok after
       /\ enabled <$> get_field after "gidnumber" = Some true.
Proof.
  split; [reflexivity |].
  split; [reflexivity |].
  split; [reflexivity |].
  eexists. split; reflexivity.
Qed.

(** C1, amended: on a value whose first element is the boolean [b], the
    handler returns and leaves the gid field disabled when [b] is [true],
    enabled when [b] is [false].  The value the widget saves is the negation
    of the checkbox state: given what [save()] returns for a checkbox in
    state [checked], the handler leaves the gid field enabled exactly when
    the checkbox is checked. *)
Theorem gid_enabled_follows_posix_checkbox {F W : Type} `{FieldLaws F}
    `{Checkbox W} (value : value) (b : bool) (that : W) (checked : bool)
    (fields : gmap string F) (f : F) :
  get_field fields "gidnumber" = Some f ->
  get_index value 0 = Ok (VBool b) ->
  checkbox_save that = VArray [VBool checked] ->
  (exists after,
      on_posix_change value fields = Ok after
      /\ enabled <$> get_field after "gidnumber" = Some (negb b))
  /\ (exists saved after,
        save that = Ok saved
        /\ saved = VArray [VBool (negb checked)]
        /\ on_posix_change saved fields = Ok after
        /\ enabled <$> get_field after "gidnumber" = Some checked).
Proof.
  intros Hf Hv Hsaved.
  assert (Hgid : is_Some (get_field fields "gidnumber"))
    by (rewrite Hf; eauto).
  split.
  - exact (on_posix_change_enabled value (VBool b) fields Hgid Hv).
  - destruct (on_posix_change_enabled (VArray [VBool (negb checked)])
                (VBool (negb checked)) fields Hgid eq_refl)
      as (after & Hafter & Hen).
    exists (VArray [VBool (negb checked)]), after.
    split.
    { apply (save_present that (VBool checked)). now rewrite Hsaved. }
    split; [reflexivity |].
    split; [exact Hafter |].
    simpl in Hen. now rewrite negb_involutive in Hen.
Qed.

Lemma gid_enabled_follows_posix_checkbox_witness :
  (exists after,
      on_posix_change (VArray [VBool true]) sample_fields = Ok after
      /\ enabled <$> get_field after "gidnumber" = Some false)
  /\ (exists saved after,
        save (W := bool) true = Ok saved
        /\ saved = VArray [VBool false]
        /\ on_posix_change saved sample_fields = Ok after
        /\ enabled <$> get_field after "gidnumber" = Some true).
Proof.
  apply (@gid_enabled_follows_posix_checkbox plain_field bool _
           plain_field_laws plain_checkbox (VArray [VBool true]) true true
           true sample_fields sample_gid);
    reflexivity.
Defined.

(** C9: the gid field is reset only on a [true] notification.  After [true]
    the field is what [reset] and then [set_enabled(false)] make of it; after
    [false] it is what [set_enabled(true)] alone makes of it, so the value it
    holds is the one it held. *)
Theorem posix_change_resets_only_on_true {F : Type} `{FieldLaws F}
    (value : value) (fields : gmap string F) (f : F) :
  get_field fields "gidnumber" = Some f ->
  (get_index value 0 = Ok (VBool true) ->
   on_posix_change value fields
   = Ok (<["gidnumber" := set_enabled (VBool false) (reset f)]> fields))
  /\ (get_index value 0 = Ok (VBool false) ->
      on_posix_change value fields
      = Ok (<["gidnumber" := set_enabled (VBool true) f]> fields)
      /\ field_value (set_enabled (VBool true) f) = field_value f).
Proof.
  intros Hf. split; intros Hv.
  - exact (on_posix_change_present _ _ _ _ Hf Hv).
  - split.
    + exact (on_posix_change_present _ _ _ _ Hf Hv).
    + apply field_value_set_enabled.
Qed.

Lemma posix_change_resets_only_on_true_witness :
  on_posix_change (VArray [VBool true]) sample_fields
  = Ok (<["gidnumber" := set_enabled (VBool false) (reset sample_gid)]>
          sample_fields)
  /\ on_posix_change (VArray [VBool false]) sample_fields
     = Ok (<["gidnumber" := set_enabled (VBool true) sample_gid]> sample_fields)
  /\ field_value (set_enabled (VBool true) sample_gid) = field_value sample_gid.
Proof.
  split.
  - apply (@posix_change_resets_only_on_true plain_field _ plain_field_laws
             (VArray [VBool true]) sample_fields sample_gid);
      reflexivity.
  - apply (@posix_change_resets_only_on_true plain_field _ plain_field_laws
             (VArray [VBool false]) sample_fields sample_gid);
      reflexivity.
Defined.

(** Delivery of a sequence of notifications. *)
Lemma notify_app {F : Type} `{Field F} (first later : list value)
    (fields : gmap string F) :
  notify (first ++ later) fields = notify first fields ≫= notify later.
Proof.
  revert fields. induction first as [| value first IH]; intros fields.
  - reflexivity.
  - simpl. destruct (on_posix_change value fields) as [after | e].
    + rewrite !bind_ok. apply IH.
    + reflexivity.
Qed.

Lemma on_posix_change_keeps_field {F : Type} `{Field F} (value : value)
    (fields : gmap string F) :
  returns (get_index value 0) ->
  is_Some (get_field fields "gidnumber") ->
  exists after,
    on_posix_change value fields = Ok after
    /\ is_Some (get_field after "gidnumber").
Proof.
  intros [first Hv] [f Hf].
  eexists. split.
  - exact (on_posix_change_present _ _ _ _ Hf Hv).
  - unfold get_field. rewrite lookup_insert_eq. eauto.
Qed.

Lemma notify_returns {F : Type} `{Field F} (values : list value) :
  forall fields : gmap string F,
    Forall (fun v => returns (get_index v 0)) values ->
    is_Some (get_field fields "gidnumber") ->
    exists after,
      notify values fields = Ok after
      /\ is_Some (get_field after "gidnumber").
Proof.
  induction values as [| value later IH]; intros fields Hall Hgid.
  - exists fields. split; [reflexivity | exact Hgid].
  - inversion Hall as [| ? ? Hco Hlater]; subst.
    destruct (on_posix_change_keeps_field value fields Hco Hgid)
      as (mid & Hmid & Hgid').
    simpl. rewrite Hmid, bind_ok.
    now apply IH.
Qed.

(** The state of the gid field after a sequence that ends with [last]. *)
Lemma notify_last {F : Type} `{FieldLaws F} (earlier : list value)
    (last first : value) (fields : gmap string F) :
  Forall (fun v => returns (get_index v 0)) earlier ->
  is_Some (get_field fields "gidnumber") ->
  get_index last 0 = Ok first ->
  exists after,
    notify (earlier ++ [last]) fields = Ok after
    /\ enabled <$> get_field after "gidnumber"
       = Some (negb (to_boolean first)).
Proof.
  intros Hall Hgid Hv.
  destruct (notify_returns earlier fields Hall Hgid) as (mid & Hmid & Hgid').
  destruct (on_posix_change_enabled last first mid Hgid' Hv)
    as (after & Hafter & Hen).
  exists after. split; [| exact Hen].
  rewrite notify_app, Hmid, bind_ok. simpl.
  now rewrite Hafter.
Qed.

(** C5: last value wins.  Two runs that end with the same notification leave
    the gid field in the same enabled state, whatever came before and
    whatever the dialogs were at the start; that state is the one the last
    notification asks for.  Both runs return. *)
Theorem last_notification_wins {F : Type} `{FieldLaws F}
    (earlier earlier' : list value) (last : value)
    (fields fields' : gmap string F) :
  Forall (fun v => returns (get_index v 0)) (earlier ++ earlier' ++ [last]) ->
  is_Some (get_field fields "gidnumber") ->
  is_Some (get_field fields' "gidnumber") ->
  exists first after after',
    get_index last 0 = Ok first
    /\ notify (earlier ++ [last]) fields = Ok after
    /\ notify (earlier' ++ [last]) fields' = Ok after'
    /\ enabled <$> get_field after "gidnumber"
       = Some (negb (to_boolean first))
    /\ enabled <$> get_field after' "gidnumber"
       = enabled <$> get_field after "gidnumber".
Proof.
  intros Hall Hgid Hgid'.
  apply Forall_app in Hall as [Hearlier Hall].
  apply Forall_app in Hall as [Hearlier' Hlast].
  inversion Hlast as [| ? ? [first Hv] _]; subst.
  destruct (notify_last earlier last first fields Hearlier Hgid Hv)
    as (after & Hrun & Hen).
  destruct (notify_last earlier' last first fields' Hearlier' Hgid' Hv)
    as (after' & Hrun' & Hen').
  exists first, after, after'.
  repeat split; try assumption.
  now rewrite Hen, Hen'.
Qed.

Lemma last_notification_wins_witness :
  exists first after after',
    get_index (VArray [VBool true]) 0 = Ok first
    /\ notify ([VArray [VBool true]; VArray [VBool false]]
               ++ [VArray [VBool true]]) sample_fields = Ok after
    /\ notify ([VString "x"] ++ [VArray [VBool true]]) disabled_fields
       = Ok after'
    /\ enabled <$> get_field after "gidnumber"
       = Some (negb (to_boolean first))
    /\ enabled <$> get_field after' "gidnumber"
       = enabled <$> get_field after "gidnumber".
Proof.
  apply (@last_notification_wins plain_field _ plain_field_laws
           [VArray [VBool true]; VArray [VBool false]] [VString "x"]
           (VArray [VBool true]) sample_fields disabled_fields).
  - repeat (constructor; [eexists; reflexivity |]). constructor.
  - eexists. reflexivity.
  - eexists. reflexivity.
Defined.

(** C2: [save()] returns a one-element array holding the negation of the
    first element of what [checkbox_save()] returned, whatever the checkbox
    state. *)
Theorem nonposix_save_negates {W : Type} `{Checkbox W} (that : W)
    (first : value) :
  get_index (checkbox_save that) 0 = Ok first ->
  save that = Ok (VArray [VBool (negb (to_boolean first))])
  /\ (forall b : bool, first = VBool b -> save that = Ok (VArray [VBool (negb b)])).
Proof.
  intros Hfirst.
  assert (Hsave : save that = Ok (VArray [VBool (negb (to_boolean first))])).
  { unfold save. rewrite Hfirst, bind_ok. reflexivity. }
  split; [exact Hsave |].
  intros b ->. exact Hsave.
Qed.

Lemma nonposix_save_negates_witness :
  save (W := bool) true = Ok (VArray [VBool false])
  /\ (forall b : bool, VBool true = VBool b ->
      save (W := bool) true = Ok (VArray [VBool (negb b)])).
Proof.
  apply (@nonposix_save_negates bool plain_checkbox true (VBool true)).
  reflexivity.
Defined.

Lemma on_posix_change_throws {F : Type} `{Field F} (value : value)
    (fields : gmap string F) :
  object_coercible value = false ->
  on_posix_change value fields = Throw TypeError.
Proof.
  intros Hco. unfold on_posix_change.
  now rewrite (get_index_throws _ _ Hco).
Qed.

Lemma on_posix_change_read_raises {F : Type} `{Field F} (value : value)
    (fields : gmap string F) (e : error) :
  get_index value 0 = Throw e -> on_posix_change value fields = Throw e.
Proof. intros Hv. unfold on_posix_change. now rewrite Hv. Qed.

(** C7, as stated, fails: notified of [undefined], the handler raises a
    [TypeError] at [value[0]]; notified of an object whose element [0] is an
    accessor that throws, it raises what the accessor threw. *)
Lemma on_posix_change_undefined_raises :
  on_posix_change VUndefined sample_fields = Throw TypeError
  /\ ~ returns (on_posix_change VUndefined sample_fields)
  /\ on_posix_change (throwing_accessor false "0" "element getter")
                     sample_fields
     = Throw (Thrown "element getter").
Proof.
  assert (Hthrow : on_posix_change VUndefined sample_fields = Throw TypeError)
    by now apply on_posix_change_throws.
  split; [exact Hthrow |].
  split.
  - intros [after Hafter]. rewrite Hthrow in Hafter. discriminate Hafter.
  - now apply on_posix_change_read_raises.
Qed.

(** C7, amended: when the read of [value[0]] returns and the dialog holds
    the gid field, [on_posix_change] returns; when the read of element [0]
    of what [checkbox_save()] gave returns, [save] returns. *)
Theorem handlers_return {F W : Type} `{Field F} `{Checkbox W}
    (value : value) (fields : gmap string F) (that : W) :
  returns (get_index value 0) ->
  is_Some (get_field fields "gidnumber") ->
  returns (get_index (checkbox_save that) 0) ->
  returns (on_posix_change value fields) /\ returns (save that).
Proof.
  intros Hvalue Hgid [first Hfirst]. split.
  - destruct (on_posix_change_keeps_field value fields Hvalue Hgid)
      as (after & Hafter & _).
    now exists after.
  - rewrite (save_present _ _ Hfirst). now eexists.
Qed.

Lemma handlers_return_witness :
  returns (on_posix_change (VArray [VBool true]) sample_fields)
  /\ returns (save (W := bool) true).
Proof.
  apply (@handlers_return plain_field bool _ plain_checkbox
           (VArray [VBool true]) sample_fields true).
  - eexists. reflexivity.
  - eexists. reflexivity.
  - eexists. reflexivity.
Defined.

(** C6: [init] declares one search facet, with the columns [cn],
    [gidnumber], [description] in that order, and one details facet, with the
    single section [details] whose fields are [cn], the textarea
    [description] and [gidnumber] in that order.  The two specs are the
    literals of the source: nothing of the framework enters them. *)
Theorem init_facet_table (IPA : ipa) :
  search_facet_specs (init IPA)
  = [ obj [ ("columns", arr [str "cn"; str "gidnumber"; str "description"]) ] ]
  /\ details_facet_specs (init IPA)
     = [ obj [ ("sections", arr [
                 obj [ ("name", str "details");
                       ("fields", arr [
                          str "cn";
                          obj [("type", str "textarea");
                               ("name", str "description")];
                          str "gidnumber" ]) ] ]) ] ]
  /\ (forall section : value,
        In section
           (flat_map (fun spec => elements (lookup_chain "sections" spec))
                     (details_facet_specs (init IPA))) ->
        lookup_chain "name" section = str "details"
        /\ map field_spec_name (elements (lookup_chain "fields" section))
           = [Some "cn"; Some "description"; Some "gidnumber"]).
Proof.
  split; [reflexivity |].
  split; [reflexivity |].
  intros section Hin. simpl in Hin.
  destruct Hin as [<- | []].
  split; reflexivity.
Qed.

(** C10: the adder dialog declares the [nonposix] field as a
    [nonposix_checkbox] labelled with the posix message and checked by
    default; the untouched widget built from that spec saves [false]. *)
Theorem adder_dialog_defaults_to_posix {W : Type} `{CheckboxLaws W}
    (IPA : ipa) :
  exists dialog_spec field_spec : value,
    adder_dialog_specs (init IPA) = [dialog_spec]
    /\ find_field_spec "nonposix" dialog_spec = Some field_spec
    /\ lookup_chain "type" field_spec = str nonposix_checkbox
    /\ lookup_chain "label" field_spec = messages_objects_group_posix IPA
    /\ lookup_chain "checked" field_spec = VBool true
    /\ save (W := W) (group_nonposix_checkbox_widget field_spec)
       = Ok (arr [VBool false]).
Proof.
  eexists. eexists.
  split; [reflexivity |].
  split; [reflexivity |].
  split; [reflexivity |].
  split; [reflexivity |].
  split; [reflexivity |].
  unfold save, group_nonposix_checkbox_widget. simpl to_boolean. cbv iota.
  rewrite checkbox_save_default. reflexivity.
Qed.

Lemma adder_dialog_defaults_to_posix_witness :
  exists dialog_spec field_spec : value,
    adder_dialog_specs (init sample_ipa) = [dialog_spec]
    /\ find_field_spec "nonposix" dialog_spec = Some field_spec
    /\ lookup_chain "type" field_spec = str nonposix_checkbox
    /\ lookup_chain "label" field_spec
       = messages_objects_group_posix sample_ipa
    /\ lookup_chain "checked" field_spec = VBool true
    /\ save (W := bool) (group_nonposix_checkbox_widget field_spec)
       = Ok (arr [VBool false]).
Proof.
  exact (@adder_dialog_defaults_to_posix bool plain_checkbox
           plain_checkbox_laws sample_ipa).
Defined.

End GroupProps.

(** ** The ACI values *)

Module AciProps.
Import Aci.

Lemma aci_values_count : length aci_values = 39.
Proof. vm_compute. reflexivity. Qed.

(** The recogniser tells ACIs from near misses: a verb outside the
    vocabulary, another version, a bind keyword outside the three, a missing
    quote around the name, a second permission, text after the body. *)
Lemma conforms_examples :
  conforms (text "(targetattr = `*`)(version 3.0; acl `n`; allow (read, write) userdn = `ldap:///all`;)") = true
  /\ conforms (text "(version 3.0; acl `n`; deny (all) groupdn != `ldap:///cn=g`;)") = true
  /\ conforms (text "(targetattr = `*`)(version 3.0; acl `n`; allow (modify) userdn = `ldap:///all`;)") = false
  /\ conforms (text "(targetattr = `*`)(version 2.0; acl `n`; allow (read) userdn = `ldap:///all`;)") = false
  /\ conforms (text "(targetattr = `*`)(version 3.0; acl `n`; allow (read) ip = `10.0.0.1`;)") = false
  /\ conforms (text "(targetattr = `*`)(version 3.0; acl n; allow (read) userdn = `ldap:///all`;)") = false
  /\ conforms (text "(targetattr = `*`)(version 3.0; acl `n`; allow (read) deny (write) userdn = `ldap:///all`;)") = false
  /\ conforms (text "(targetscope = `base`)(version 3.0; acl `n`; allow (read) userdn = `ldap:///all`;)") = false
  /\ conforms (text "(targetattr = `*`)(version 3.0; acl `n`; allow (read) userdn = `ldap:///all`;) x") = false.
Proof. vm_compute. repeat split. Qed.

Lemma replica_admins_read_access_text :
  replica_admins_read_access
  = text "(targetattr != aci)(version 3.0; aci `replica admins read access`; allow (read, search, compare) groupdn = `ldap:///cn=Modify Replication Agreements,cn=permissions,cn=pbac,$SUFFIX`;)".
Proof. vm_compute. reflexivity. Qed.

(** C4, as stated, fails: the value that line 60 of the update file removes
    introduces its name with [aci], where the grammar has [acl]. *)
Lemma replica_admins_read_access_not_conforming :
  In replica_admins_read_access aci_values
  /\ conforms replica_admins_read_access = false.
Proof.
  split.
  - assert (Hfound : existsb (String.eqb replica_admins_read_access) aci_values
                     = true) by (vm_compute; reflexivity).
    apply existsb_exists in Hfound as (v & Hin & Heq).
    apply String.eqb_eq in Heq. now subst v.
  - vm_compute. reflexivity.
Qed.

Lemma aci_values_checked : forallb conforms_but_for_keyword aci_values = true.
Proof. vm_compute. reflexivity. Qed.

(** C4, amended: every ACI value the two files add or remove conforms to the
    grammar, but for the obsolete value of line 60, which conforms to it when
    [aci] is read for the keyword [acl]. *)
Theorem aci_values_conform :
  Forall
    (fun v =>
       conforms v = true
       \/ (v = replica_admins_read_access /\ conforms_with ["aci"] v = true))
    aci_values.
Proof.
  apply List.Forall_forall. intros v Hin.
  pose proof (proj1 (List.forallb_forall _ _) aci_values_checked v Hin) as Hv.
  unfold conforms_but_for_keyword in Hv.
  apply orb_true_iff in Hv as [Hv | Hv].
  - now left.
  - right. apply andb_true_iff in Hv as [Heq Hlegacy].
    apply String.eqb_eq in Heq. now split.
Qed.

End AciProps.

(** ** [group.js]: further properties of the handler and the widget *)

Module GroupMore.
Import JS Group ResultProps GroupProps.

Lemma on_posix_change_missing {F : Type} `{Field F} (value : value)
    (fields : gmap string F) :
  returns (get_index value 0) ->
  get_field fields "gidnumber" = None ->
  on_posix_change value fields = Throw TypeError.
Proof.
  intros [first Hv] Hnone.
  unfold on_posix_change. rewrite Hv, bind_ok.
  destruct (to_boolean first).
  - unfold call_method. rewrite Hnone. reflexivity.
  - rewrite bind_ok, Hnone. reflexivity.
Qed.

(** X2: the handler returns exactly when the read of [value[0]] returns and
    the dialog holds the gid field.  When that read raises -- a [TypeError]
    on [undefined] and [null], or whatever an accessor throws -- the handler
    raises the same; when the read returns and the field is missing, it
    raises a [TypeError]. *)
Theorem on_posix_change_returns_iff {F : Type} `{Field F} (value : value)
    (fields : gmap string F) :
  (returns (on_posix_change value fields)
   <-> returns (get_index value 0)
       /\ is_Some (get_field fields "gidnumber"))
  /\ (forall e : error,
        get_index value 0 = Throw e -> on_posix_change value fields = Throw e)
  /\ (object_coercible value = false ->
      on_posix_change value fields = Throw TypeError)
  /\ (returns (get_index value 0) ->
      get_field fields "gidnumber" = None ->
      on_posix_change value fields = Throw TypeError).
Proof.
  split; [| split; [| split]].
  - split.
    + intros [after Hrun].
      destruct (get_index value 0) as [first | e] eqn:Hv.
      * split; [now exists first |].
        destruct (get_field fields "gidnumber") as [f |] eqn:Hf; [eauto |].
        rewrite on_posix_change_missing in Hrun; [discriminate Hrun | | exact Hf].
        now exists first.
      * rewrite (on_posix_change_read_raises _ _ _ Hv) in Hrun.
        discriminate Hrun.
    + intros [Hread Hgid].
      destruct (on_posix_change_keeps_field value fields Hread Hgid)
        as (after & Hafter & _).
      now exists after.
  - intros e. apply on_posix_change_read_raises.
  - apply on_posix_change_throws.
  - apply on_posix_change_missing.
Qed.

(** X3: the handler goes by the truthiness of [value[0]], whatever kind of
    value it is, and hands [set_enabled] a boolean: a truthy first element
    resets and disables, a falsy one -- also the [undefined] an empty array
    gives -- enables without a reset. *)
Theorem on_posix_change_by_truthiness {F : Type} `{Field F}
    (value first : value) (fields : gmap string F) (f : F) :
  get_field fields "gidnumber" = Some f ->
  get_index value 0 = Ok first ->
  (to_boolean first = true ->
   on_posix_change value fields
   = Ok (<["gidnumber" := set_enabled (VBool false) (reset f)]> fields))
  /\ (to_boolean first = false ->
      on_posix_change value fields
      = Ok (<["gidnumber" := set_enabled (VBool true) f]> fields))
  /\ (value = VArray [] ->
      on_posix_change value fields
      = Ok (<["gidnumber" := set_enabled (VBool true) f]> fields)).
Proof.
  intros Hf Hv.
  pose proof (on_posix_change_present _ _ _ _ Hf Hv) as Hrun.
  unfold js_not in Hrun.
  split; [| split].
  - intros Ht. now rewrite Ht in Hrun.
  - intros Ht. now rewrite Ht in Hrun.
  - intros ->. simpl in Hv. injection Hv as <-. exact Hrun.
Qed.

Lemma on_posix_change_by_truthiness_witness :
  on_posix_change (VArray [VString "on"]) sample_fields
  = Ok (<["gidnumber" := set_enabled (VBool false) (reset sample_gid)]>
          sample_fields)
  /\ on_posix_change (VArray []) sample_fields
     = Ok (<["gidnumber" := set_enabled (VBool true) sample_gid]>
             sample_fields).
Proof.
  split.
  - apply (@on_posix_change_by_truthiness plain_field _
             (VArray [VString "on"]) (VString "on") sample_fields sample_gid);
      reflexivity.
  - apply (@on_posix_change_by_truthiness plain_field _
             (VArray []) VUndefined sample_fields sample_gid);
      reflexivity.
Defined.

(** X4: [save()] returns exactly when the read of element [0] of what
    [checkbox_save()] gave returns; on [undefined] and [null] it raises a
    [TypeError].  Whenever it returns, the result is an array of one
    boolean, and [[true]] when [checkbox_save()] gave an empty array. *)
Theorem save_returns_boolean_array {W : Type} `{Checkbox W} (that : W) :
  (returns (save that) <-> returns (get_index (checkbox_save that) 0))
  /\ (object_coercible (checkbox_save that) = false ->
      save that = Throw TypeError)
  /\ (forall saved : value,
        save that = Ok saved -> exists b : bool, saved = VArray [VBool b])
  /\ (checkbox_save that = VArray [] -> save that = Ok (VArray [VBool true])).
Proof.
  split; [| split; [| split]].
  - split.
    + intros [saved Hsaved]. unfold save in Hsaved.
      destruct (get_index (checkbox_save that) 0) as [first | e];
        [now exists first | discriminate Hsaved].
    + intros [first Hfirst].
      rewrite (save_present _ _ Hfirst). now eexists.
  - intros Hco. unfold save.
    now rewrite (get_index_throws _ _ Hco).
  - intros saved Hsaved.
    destruct (get_index (checkbox_save that) 0) as [first | e] eqn:Hfirst.
    + rewrite (save_present _ _ Hfirst) in Hsaved.
      injection Hsaved as <-. eauto.
    + unfold save in Hsaved. rewrite Hfirst in Hsaved. discriminate Hsaved.
  - intros Hempty. apply (save_present that VUndefined).
    now rewrite Hempty.
Qed.

(** X5: handing the handler the array [save()] returns undoes the negation:
    the gid field ends up enabled exactly when the first element of
    [checkbox_save()] is truthy, and it is reset exactly when that element is
    falsy. *)
Theorem save_then_posix_change {F W : Type} `{FieldLaws F} `{Checkbox W}
    (that : W) (first : value) (fields : gmap string F) (f : F) :
  get_index (checkbox_save that) 0 = Ok first ->
  get_field fields "gidnumber" = Some f ->
  exists saved after,
    save that = Ok saved
    /\ on_posix_change saved fields = Ok after
    /\ after = <["gidnumber" :=
                   set_enabled (VBool (to_boolean first))
                               (if to_boolean first then f else reset f)]>
                 fields
    /\ enabled <$> get_field after "gidnumber" = Some (to_boolean first).
Proof.
  intros Hfirst Hf.
  exists (VArray [VBool (negb (to_boolean first))]). eexists.
  split; [exact (save_present _ _ Hfirst) |].
  split.
  { apply (on_posix_change_present _ (VBool (negb (to_boolean first))) _ _ Hf).
    reflexivity. }
  unfold js_not. simpl to_boolean. rewrite negb_involutive.
  split.
  - now destruct (to_boolean first).
  - unfold get_field. rewrite lookup_insert_eq. simpl.
    now rewrite enabled_set_enabled.
Qed.

Lemma save_then_posix_change_witness :
  exists saved after,
    save (W := bool) true = Ok saved
    /\ on_posix_change saved sample_fields = Ok after
    /\ after = <["gidnumber" := set_enabled (VBool true) sample_gid]>
                 sample_fields
    /\ enabled <$> get_field after "gidnumber" = Some true.
Proof.
  apply (@save_then_posix_change plain_field bool _ plain_field_laws
           plain_checkbox true (VBool true) sample_fields sample_gid);
    reflexivity.
Defined.

Lemma lookup_chain_falsy (k : string) (spec : value) :
  to_boolean spec = false -> lookup_chain k spec = VUndefined.
Proof.
  destruct spec; simpl; intros Hfalsy; try reflexivity; discriminate Hfalsy.
Qed.

(** X6: an untouched non-posix widget saves the negation of the [checked]
    default its spec declares; built from no spec at all, or from a spec that
    declares no [checked], it saves [[true]]. *)
Theorem untouched_widget_saves_negated_default {W : Type} `{CheckboxLaws W}
    (spec : value) :
  save (W := W) (group_nonposix_checkbox_widget spec)
  = Ok (arr [VBool (negb (to_boolean (lookup_chain "checked" spec)))])
  /\ (lookup_chain "checked" spec = VUndefined ->
      save (W := W) (group_nonposix_checkbox_widget spec)
      = Ok (arr [VBool true]))
  /\ save (W := W) (group_nonposix_checkbox_widget VUndefined)
     = Ok (arr [VBool true]).
Proof.
  assert (Hsave : forall s : value,
             save (W := W) (group_nonposix_checkbox_widget s)
             = Ok (arr [VBool (negb (to_boolean (lookup_chain "checked" s)))])).
  { intros s. unfold group_nonposix_checkbox_widget.
    destruct (to_boolean s) eqn:Hs.
    - apply (save_present _ (VBool (to_boolean (lookup_chain "checked" s)))).
      now rewrite checkbox_save_default.
    - rewrite (lookup_chain_falsy _ _ Hs).
      apply (save_present _ (VBool false)).
      now rewrite checkbox_save_default. }
  split; [apply Hsave | split].
  - intros Hnone. now rewrite Hsave, Hnone.
  - apply Hsave.
Qed.

Lemma untouched_widget_saves_negated_default_witness :
  save (W := bool)
       (group_nonposix_checkbox_widget (obj [("checked", VBool true)]))
  = Ok (arr [VBool false])
  /\ save (W := bool) (group_nonposix_checkbox_widget (obj []))
     = Ok (arr [VBool true])
  /\ save (W := bool) (group_nonposix_checkbox_widget VUndefined)
     = Ok (arr [VBool true]).
Proof.
  split; [| split].
  - apply (@untouched_widget_saves_negated_default bool plain_checkbox
             plain_checkbox_laws (obj [("checked", VBool true)])).
  - apply (@untouched_widget_saves_negated_default bool plain_checkbox
             plain_checkbox_laws (obj [])).
  - apply (@untouched_widget_saves_negated_default bool plain_checkbox
             plain_checkbox_laws VUndefined).
Defined.

(** X8: however many notifications with a falsy first element are delivered,
    the gid field is never reset: the delivery returns, the field holds the
    value it held, every other field is untouched, and after at least one
    notification the field is enabled. *)
Theorem notify_falsy_keeps_value {F : Type} `{FieldLaws F}
    (values : list value) :
  forall (fields : gmap string F) (f : F),
    get_field fields "gidnumber" = Some f ->
    Forall (fun v => exists first,
                get_index v 0 = Ok first /\ to_boolean first = false) values ->
    exists after g,
      notify values fields = Ok after
      /\ get_field after "gidnumber" = Some g
      /\ field_value g = field_value f
      /\ (values <> [] -> enabled g = true)
      /\ forall name : string,
           name <> "gidnumber" -> get_field after name = get_field fields name.
Proof.
  induction values as [| value later IH]; intros fields f Hf Hall.
  - exists fields, f. repeat split; try assumption; try reflexivity.
    intros Hne. now contradiction Hne.
  - inversion Hall as [| ? ? (first & Hv & Hfalsy) Hlater]; subst.
    pose proof (on_posix_change_present _ _ _ _ Hf Hv) as Hrun.
    unfold js_not in Hrun. rewrite Hfalsy in Hrun. simpl in Hrun.
    set (mid := <["gidnumber" := set_enabled (VBool true) f]> fields) in *.
    assert (Hmid : get_field mid "gidnumber"
                   = Some (set_enabled (VBool true) f))
      by (unfold get_field, mid; apply lookup_insert_eq).
    destruct (IH mid _ Hmid Hlater)
      as (after & g & Hafter & Hg & Hvalue & Hen & Hframe).
    exists after, g. simpl. rewrite Hrun, bind_ok.
    split; [exact Hafter |].
    split; [exact Hg |].
    split; [now rewrite Hvalue, field_value_set_enabled |].
    split.
    + intros _. destruct later as [| next later'].
      * simpl in Hafter. injection Hafter as <-.
        rewrite Hmid in Hg. injection Hg as <-.
        apply enabled_set_enabled.
      * now apply Hen.
    + intros name Hname. rewrite (Hframe name Hname).
      unfold get_field, mid. now rewrite lookup_insert_ne.
Qed.

Lemma notify_falsy_keeps_value_witness :
  exists after g,
    notify [VArray [VBool false]; VArray []; VArray [VString EmptyString]]
           sample_fields = Ok after
    /\ get_field after "gidnumber" = Some g
    /\ field_value g = field_value sample_gid
    /\ ([VArray [VBool false]; VArray []; VArray [VString EmptyString]] <> []
        -> enabled g = true)
    /\ forall name : string,
         name <> "gidnumber" ->
         get_field after name = get_field sample_fields name.
Proof.
  apply (@notify_falsy_keeps_value plain_field _ plain_field_laws
           [VArray [VBool false]; VArray []; VArray [VString EmptyString]]
           sample_fields sample_gid).
  - reflexivity.
  - repeat constructor; eexists; split; reflexivity.
Defined.

End GroupMore.

(** ** The changes of the ACI files *)

Module AciMore.
Import Aci.

Lemma disjoint_values_sound (xs ys : list change) :
  disjoint_values xs ys = true ->
  forall a r : change, In a xs -> In r ys -> change_value a <> change_value r.
Proof.
  unfold disjoint_values. intros Hall a r Ha Hr Heq.
  pose proof (proj1 (List.forallb_forall _ _) Hall a Ha) as Hrow.
  pose proof (proj1 (List.forallb_forall _ _) Hrow r Hr) as Hcell.
  apply negb_true_iff, String.eqb_neq in Hcell. contradiction.
Qed.

(** X10: both files are in shape -- every ACI line stands under a [dn:] line,
    and every LDIF record is a [modify] that adds an [aci] -- so each of the
    39 values has its entry; and no value that is added anywhere is also
    removed, so the outcome does not depend on the order in which adds and
    removes are applied. *)
Theorem added_never_removed :
  all_changes = Some changes
  /\ map change_value changes = aci_values
  /\ length (added changes) = 27
  /\ length (removed changes) = 12
  /\ forall a r : change,
       In a (added changes) -> In r (removed changes) ->
       change_value a <> change_value r.
Proof.
  split; [vm_compute; reflexivity |].
  split; [vm_compute; reflexivity |].
  split; [vm_compute; reflexivity |].
  split; [vm_compute; reflexivity |].
  apply disjoint_values_sound. vm_compute. reflexivity.
Qed.

(** X11: every ACI the files add has a name, and no two of them share one. *)
Theorem added_names_distinct :
  Forall (fun c => is_Some (acl_name (change_value c))) (added changes)
  /\ NoDup (map (fun c => acl_name (change_value c)) (added changes)).
Proof.
  split.
  - apply (bool_decide_unpack _). vm_compute. exact I.
  - apply (bool_decide_unpack _). vm_compute. exact I.
Qed.

End AciMore.
